(** * Pension loss calculator: a shallow embedding of [streamlit_app.py]

    The script computes a pension-loss award by two methods (Simple and
    Complex), looks a multiplier up in a generated demonstration table and
    exports a Word report.

    Modelling conventions.
    - Python floats are read as exact rationals ([Q], compared with [==]):
      the formulas of the script, rounding aside.  Module [Binary64] repeats
      the totals and the gross-up on IEEE binary64 numbers, the arithmetic
      the script runs on, and shows where an identity of exact arithmetic
      does not carry over.  Integers coming from integer widgets
      ([claimant_age], [ret_age], [withdrawal]) are [Z].
    - A Python exception is a value of [exn]; code that may raise returns
      [result].  True division raises [ZeroDivisionError] on a zero divisor.
    - Every assignment [v = e] of the script is a definition [v] taking the
      variables that [e] reads. *)

From Stdlib Require Import Floats.
From Stdlib Require Import QArith Qminmax Qpower Qfield ZArith List String.
From Stdlib Require Import DecimalString DecimalPos DecimalZ Lia Lqa Bool.
Import ListNotations.

Local Open Scope Z_scope.
Local Open Scope Q_scope.

(** ** Python runtime: exceptions, comparisons, division *)

Inductive exn : Type :=
| ZeroDivisionError
| IndexError
| KeyError
| AttributeError.

Inductive result (A : Type) : Type :=
| Ok (a : A)
| Raise (e : exn).

Arguments Ok {A} a.
Arguments Raise {A} e.

Definition bind {A B : Type} (r : result A) (k : A -> result B) : result B :=
  match r with
  | Ok a => k a
  | Raise e => Raise e
  end.

Notation "x <- r ;; k" := (bind r (fun x => k))
  (at level 61, r at next level, right associativity).

(** [a < b] on floats. *)
Definition py_lt (a b : Q) : bool :=
  match a ?= b with
  | Lt => true
  | _ => false
  end.

(** [max(a, b)]: the first argument unless the second is strictly larger. *)
Definition py_max (a b : Q) : Q := if py_lt a b then b else a.

(** [min(a, b)]: the first argument unless the second is strictly smaller. *)
Definition py_min (a b : Q) : Q := if py_lt b a then b else a.

(** [a / b]: raises on a zero divisor. *)
Definition py_truediv (a b : Q) : result Q :=
  if Qeq_bool b 0 then Raise ZeroDivisionError else Ok (a / b).

(** [list(range(lo, hi))]. *)
Definition py_range (lo hi : Z) : list Z :=
  map (fun i => (lo + Z.of_nat i)%Z) (seq 0 (Z.to_nat (hi - lo))).

(** [str(n)] for an integer, as used by an f-string. *)
Definition py_str_int (n : Z) : string := NilZero.string_of_int (Z.to_int n).

(** ** A column-wise data frame (the part of pandas the script uses) *)

Definition DataFrame : Type := list (string * list Q).

(** [df[name]]: the column, [KeyError] when there is none. *)
Fixpoint getitem (df : DataFrame) (name : string) : result (list Q) :=
  match df with
  | [] => Raise KeyError
  | (n, col) :: rest => if String.eqb n name then Ok col else getitem rest name
  end.

(** [df.applymap(f)]: [f] on every cell of every column. *)
Definition applymap (f : Q -> Q) (df : DataFrame) : DataFrame :=
  map (fun nc => (fst nc, map f (snd nc))) df.

(** [column == v]: the boolean mask. *)
Definition eq_mask (col : list Q) (v : Q) : list bool :=
  map (fun c => Qeq_bool c v) col.

(** [df.loc[mask, name].values]: the cells of column [name] on the rows the
    mask selects. *)
Fixpoint select (mask : list bool) (col : list Q) : list Q :=
  match mask, col with
  | true :: m, c :: cs => c :: select m cs
  | false :: m, _ :: cs => select m cs
  | _, _ => []
  end.

Definition loc_values (df : DataFrame) (mask : list bool) (name : string)
  : result (list Q) :=
  col <- getitem df name ;; Ok (select mask col).

(** [values[0]]: [IndexError] on an empty selection. *)
Definition item0 (values : list Q) : result Q :=
  match values with
  | v :: _ => Ok v
  | [] => Raise IndexError
  end.

(** ** Ogden table data manager (demo dataset) *)

Definition ages : list Z := py_range 40 61.

Definition linear (base step : Q) : list Q :=
  map (fun x => base - step * inject_Z (x - 40)) ages.

Definition get_ogden_subset (gender : string) : DataFrame * string :=
  let '(base_60, base_65, base_68, table_name) :=
    if String.eqb gender "Male" then
      (linear 24.50 0.95, linear 22.00 0.6, linear 19.50 0.5,
       "Table 28 (Males)"%string)
    else
      (linear 26.00 0.90, linear 23.50 0.55, linear 21.00 0.5,
       "Table 29 (Females)"%string) in
  let df := [ ("Age at Trial"%string, map inject_Z ages);
              ("Retire at 60"%string, base_60);
              ("Retire at 65"%string, base_65);
              ("Retire at 68"%string, base_68) ] in
  let df := applymap (fun x => py_max 0.0 x) df in
  (df, table_name).

(** The options of the widgets that feed the lookup. *)
Definition gender_options : list string := ["Male"; "Female"]%string.
Definition ret_age_options : list Z := [60; 65; 68]%Z.

(** The undecorated formula behind a cell: base value at age 40 and yearly
    step of a (gender, retirement age) column, as written in the generator. *)
Definition column_base (gender : string) (ret_age : Z) : Q :=
  if String.eqb gender "Male" then
    if Z.eqb ret_age 60 then 24.50 else if Z.eqb ret_age 65 then 22.00 else 19.50
  else
    if Z.eqb ret_age 60 then 26.00 else if Z.eqb ret_age 65 then 23.50 else 21.00.

Definition column_step (gender : string) (ret_age : Z) : Q :=
  if String.eqb gender "Male" then
    if Z.eqb ret_age 60 then 0.95 else if Z.eqb ret_age 65 then 0.6 else 0.5
  else
    if Z.eqb ret_age 60 then 0.90 else if Z.eqb ret_age 65 then 0.55 else 0.5.

(** The cell the generator writes for an age in a column. *)
Definition cell (gender : string) (ret_age a : Z) : Q :=
  py_max 0.0 (column_base gender ret_age
              - column_step gender ret_age * inject_Z (a - 40)).

(** ** Step 4 of the Complex method: the lookup *)

Definition target_col (ret_age : Z) : string :=
  ("Retire at " ++ py_str_int ret_age)%string.

(** The expression inside [try]. *)
Definition lookup_expr (df_ogden : DataFrame) (claimant_age ret_age : Z)
  : result Q :=
  age_col <- getitem df_ogden "Age at Trial" ;;
  values <- loc_values df_ogden (eq_mask age_col (inject_Z claimant_age))
                       (target_col ret_age) ;;
  item0 values.

(** [try: ... except IndexError: ...], yielding
    [(auto_multiplier, found_in_table)]; other exceptions propagate. *)
Definition lookup (df_ogden : DataFrame) (claimant_age ret_age : Z)
  : result (Q * bool) :=
  match lookup_expr df_ogden claimant_age ret_age with
  | Ok v => Ok (v, true)
  | Raise IndexError => Ok (0.0, false)
  | Raise e => Raise e
  end.

(** What the page shows under the selectors. *)
Inductive display : Type :=
| Dataframe (df : DataFrame) (highlight_age : Z) (highlight_col : string)
| Warning (msg : string).

Definition lookup_display (df_ogden : DataFrame) (claimant_age ret_age : Z)
  (found_in_table : bool) : display :=
  if found_in_table then Dataframe df_ogden claimant_age (target_col ret_age)
  else Warning "Age outside demo range (40-60). Enter manually.".

(** [number_input("Selected Multiplier", value=float(auto_multiplier))] in
    one run of the script: what the operator has typed into the box as it
    stands, the looked-up value otherwise.  The box has no key, so the page
    builds a fresh one, at its default, whenever the looked-up value
    changes: an entry does not outlive a change of age, gender or retirement
    age. *)
Definition multiplier (entry : option Q) (auto_multiplier : Q) : Q :=
  match entry with
  | Some m => m
  | None => auto_multiplier
  end.

(** ** Sidebar configuration *)

(** The options of the [Marginal Tax Rate] select box. *)
Definition tax_rate_options : list Q := [0.20; 0.40; 0.45].

(** Values stored in the report dictionaries. *)
Inductive value : Type :=
| Num (q : Q)
| Int (z : Z)
| Str (s : string).

Definition dict : Type := list (string * value).

(** ** Simple method *)

Module Simple.

Definition annual_loss (gross_salary contrib : Q) : Q :=
  gross_salary * (contrib / 100).

Definition net_total (annual_loss period : Q) : Q := annual_loss * period.

(** Gross up. *)
Definition taxable (net_total tax_free_remaining : Q) : Q :=
  py_max 0 (net_total - tax_free_remaining).

Definition gross_total (net_total tax_free_remaining taxable tax_rate : Q)
  : result Q :=
  q <- py_truediv taxable (1 - tax_rate) ;;
  Ok (py_min net_total tax_free_remaining + q).

(** The variables the branch binds. *)
Record vars : Type := {
  v_annual_loss : Q;
  v_net_total : Q;
  v_taxable : Q;
  v_gross_total : Q
}.

(** The branch, from the widget values to its variables. *)
Definition run (gross_salary contrib period tax_rate tax_free_remaining : Q)
  : result vars :=
  let al := annual_loss gross_salary contrib in
  let nt := net_total al period in
  let tx := taxable nt tax_free_remaining in
  gt <- gross_total nt tax_free_remaining tx tax_rate ;;
  Ok {| v_annual_loss := al; v_net_total := nt;
        v_taxable := tx; v_gross_total := gt |}.

(** Report data. *)
Definition r_data (gross_salary contrib tax_rate : Q) : dict :=
  [ ("gross_salary", Num gross_salary); ("contrib_rate", Num contrib);
    ("tax_rate", Num tax_rate) ]%string.

Definition r_res (v : vars) : dict :=
  [ ("net_total", Num (v_net_total v));
    ("gross_total", Num (v_gross_total v)) ]%string.

End Simple.

(** ** Complex method *)

Module Complex.

(** Steps 1-3: annual pension loss. *)
Definition net_annual_loss (old_pension accrued_pension new_pension : Q) : Q :=
  old_pension - (accrued_pension + new_pension).

(** Calculation engine. *)
Definition yrs_to_retire (ret_age claimant_age : Z) : Z :=
  (ret_age - claimant_age)%Z.

(** 1. Discount factor, standard rate -0.25%. *)
Definition ls_discount_factor (yrs_to_retire : Z) : Q :=
  (1 + -0.0025) ^ (- yrs_to_retire).

(** 2. Present values. *)
Definition pv_old_lump (old_lump ls_discount_factor : Q) : Q :=
  old_lump * ls_discount_factor.

Definition pv_new_future (new_lump_future ls_discount_factor : Q) : Q :=
  new_lump_future * ls_discount_factor.

Definition pv_new_total (pv_new_future new_lump_now : Q) : Q :=
  pv_new_future + new_lump_now.

(** 3. Net lump sum loss. *)
Definition lump_val (pv_old_lump pv_new_total : Q) : Q :=
  pv_old_lump - pv_new_total.

(** Totals. *)
Definition cap_val (net_annual_loss multiplier : Q) : Q :=
  net_annual_loss * multiplier.

Definition total_raw (cap_val lump_val : Q) : Q := cap_val + lump_val.

Definition deduction (total_raw : Q) (withdrawal : Z) : Q :=
  total_raw * (inject_Z withdrawal / 100).

Definition net_total (total_raw deduction : Q) : Q := total_raw - deduction.

(** Gross up. *)
Definition taxable (net_total tax_free_remaining : Q) : Q :=
  py_max 0 (net_total - tax_free_remaining).

Definition gross_total (net_total tax_free_remaining taxable tax_rate : Q)
  : result Q :=
  q <- py_truediv taxable (1 - tax_rate) ;;
  Ok (py_min net_total tax_free_remaining + q).

Definition tax_element (gross_total net_total : Q) : Q :=
  gross_total - net_total.

(** The [Value] column of the Final Award Components chart. *)
Definition comp_data (cap_val lump_val : Q) (withdrawal : Z) (tax_element : Q)
  : list Q :=
  [ cap_val * (1 - inject_Z withdrawal / 100);
    lump_val * (1 - inject_Z withdrawal / 100);
    tax_element ].

(** The widget values of the branch. *)
Record inputs : Type := {
  old_pension : Q;
  accrued_pension : Q;
  new_pension : Q;
  gender : string;
  claimant_age : Z;
  ret_age : Z;
  multiplier_entry : option Q;
  withdrawal : Z;
  old_lump : Q;
  new_lump_future : Q;
  new_lump_now : Q
}.

(** The variables the branch binds. *)
Record vars : Type := {
  v_net_annual_loss : Q;
  v_table_name : string;
  v_auto_multiplier : Q;
  v_found_in_table : bool;
  v_display : display;
  v_multiplier : Q;
  v_yrs_to_retire : Z;
  v_ls_discount_factor : Q;
  v_pv_old_lump : Q;
  v_pv_new_future : Q;
  v_pv_new_total : Q;
  v_lump_val : Q;
  v_cap_val : Q;
  v_total_raw : Q;
  v_deduction : Q;
  v_net_total : Q;
  v_taxable : Q;
  v_gross_total : Q;
  v_tax_element : Q;
  v_comp_data : list Q
}.

(** The branch, from the widget values to its variables. *)
Definition run (i : inputs) (tax_rate tax_free_remaining : Q) : result vars :=
  let nal := net_annual_loss (old_pension i) (accrued_pension i) (new_pension i) in
  let '(df_ogden, table_name) := get_ogden_subset (gender i) in
  found <- lookup df_ogden (claimant_age i) (ret_age i) ;;
  let '(auto_multiplier, found_in_table) := found in
  let shown := lookup_display df_ogden (claimant_age i) (ret_age i) found_in_table in
  let m := multiplier (multiplier_entry i) auto_multiplier in
  let yrs := yrs_to_retire (ret_age i) (claimant_age i) in
  let df := ls_discount_factor yrs in
  let pvo := pv_old_lump (old_lump i) df in
  let pvf := pv_new_future (new_lump_future i) df in
  let pvn := pv_new_total pvf (new_lump_now i) in
  let lv := lump_val pvo pvn in
  let cv := cap_val nal m in
  let tr := total_raw cv lv in
  let de := deduction tr (withdrawal i) in
  let nt := net_total tr de in
  let tx := taxable nt tax_free_remaining in
  gt <- gross_total nt tax_free_remaining tx tax_rate ;;
  let te := tax_element gt nt in
  Ok {| v_net_annual_loss := nal; v_table_name := table_name;
        v_auto_multiplier := auto_multiplier;
        v_found_in_table := found_in_table; v_display := shown;
        v_multiplier := m; v_yrs_to_retire := yrs;
        v_ls_discount_factor := df; v_pv_old_lump := pvo;
        v_pv_new_future := pvf; v_pv_new_total := pvn; v_lump_val := lv;
        v_cap_val := cv; v_total_raw := tr; v_deduction := de;
        v_net_total := nt; v_taxable := tx; v_gross_total := gt;
        v_tax_element := te;
        v_comp_data := comp_data cv lv (withdrawal i) te |}.

(** Report data pack. *)
Definition r_data (i : inputs) (v : vars) (tax_rate : Q) : dict :=
  [ ("age", Int (claimant_age i)); ("gender", Str (gender i));
    ("ret_age", Int (ret_age i)); ("table_ref", Str (v_table_name v));
    ("multiplier", Num (v_multiplier v)); ("withdrawal", Int (withdrawal i));
    ("tax_rate", Num tax_rate); ("years_to_retire", Int (v_yrs_to_retire v));
    ("old_lump", Num (old_lump i));
    ("new_lump_future", Num (new_lump_future i));
    ("new_lump_now", Num (new_lump_now i)) ]%string.

Definition r_res (v : vars) : dict :=
  [ ("net_annual_loss", Num (v_net_annual_loss v));
    ("capital_value_raw", Num (v_cap_val v));
    ("lump_sum_val", Num (v_lump_val v));
    ("withdrawal_deduction", Num (v_deduction v));
    ("net_total", Num (v_net_total v));
    ("gross_total", Num (v_gross_total v));
    ("ls_discount_factor", Num (v_ls_discount_factor v)) ]%string.

(** The values the widgets of the branch start with; the multiplier box
    starts at the looked-up value. *)
Definition defaults : inputs := {|
  old_pension := 20000.0;
  accrued_pension := 10000.0;
  new_pension := 5000.0;
  gender := "Male";
  claimant_age := 50;
  ret_age := 65;
  multiplier_entry := None;
  withdrawal := 5;
  old_lump := 60000.0;
  new_lump_future := 20000.0;
  new_lump_now := 10000.0
|}.


(** How the variables of a finished run hang together: each one is its
    assignment applied to the variables bound before it. *)
Definition bound_by_run (i : inputs) (tax_rate tax_free_remaining : Q)
  (v : vars) : Prop :=
  v_net_annual_loss v
  = net_annual_loss (old_pension i) (accrued_pension i) (new_pension i) /\
  lookup (fst (get_ogden_subset (gender i))) (claimant_age i) (ret_age i)
  = Ok (v_auto_multiplier v, v_found_in_table v) /\
  v_table_name v = snd (get_ogden_subset (gender i)) /\
  v_display v
  = lookup_display (fst (get_ogden_subset (gender i))) (claimant_age i)
      (ret_age i) (v_found_in_table v) /\
  v_multiplier v = multiplier (multiplier_entry i) (v_auto_multiplier v) /\
  v_yrs_to_retire v = yrs_to_retire (ret_age i) (claimant_age i) /\
  v_ls_discount_factor v = ls_discount_factor (v_yrs_to_retire v) /\
  v_pv_old_lump v = pv_old_lump (old_lump i) (v_ls_discount_factor v) /\
  v_pv_new_future v
  = pv_new_future (new_lump_future i) (v_ls_discount_factor v) /\
  v_pv_new_total v = pv_new_total (v_pv_new_future v) (new_lump_now i) /\
  v_lump_val v = lump_val (v_pv_old_lump v) (v_pv_new_total v) /\
  v_cap_val v = cap_val (v_net_annual_loss v) (v_multiplier v) /\
  v_total_raw v = total_raw (v_cap_val v) (v_lump_val v) /\
  v_deduction v = deduction (v_total_raw v) (withdrawal i) /\
  v_net_total v = net_total (v_total_raw v) (v_deduction v) /\
  v_taxable v = taxable (v_net_total v) tax_free_remaining /\
  gross_total (v_net_total v) tax_free_remaining (v_taxable v) tax_rate
  = Ok (v_gross_total v) /\
  v_tax_element v = tax_element (v_gross_total v) (v_net_total v) /\
  v_comp_data v
  = comp_data (v_cap_val v) (v_lump_val v) (withdrawal i) (v_tax_element v).

End Complex.

(** ** Report generator *)

(** The part of python-docx that [generate_report] touches before its
    sections: a document is the list of its paragraphs, and a paragraph
    object is designated by its position in that list. *)
Module Docx.

Inductive alignment : Type := LEFT | CENTER | RIGHT | JUSTIFY.

Record Paragraph : Type := {
  style : string;
  text : string;
  p_alignment : option alignment
}.

Definition Document : Type := list Paragraph.

Definition new_document : Document := [].

Definition heading_style (level : Z) : string :=
  if Z.eqb level 0 then "Title"%string
  else ("Heading " ++ py_str_int level)%string.

(** [doc.add_heading(text, level)]: the document and the new paragraph. *)
Definition add_heading (doc : Document) (t : string) (level : Z)
  : Document * nat :=
  (doc ++ [ {| style := heading_style level; text := t;
               p_alignment := None |} ], List.length doc).

(** [doc.add_paragraph(text)]. *)
Definition add_paragraph (doc : Document) (t : string) : Document * nat :=
  (doc ++ [ {| style := "Normal"; text := t; p_alignment := None |} ],
   List.length doc).

Fixpoint update (doc : Document) (p : nat) (f : Paragraph -> Paragraph)
  : Document :=
  match doc, p with
  | [], _ => []
  | x :: rest, O => f x :: rest
  | x :: rest, S p' => x :: update rest p' f
  end.

(** [paragraph.alignment = a]. *)
Definition set_alignment (doc : Document) (p : nat) (a : alignment)
  : Document :=
  update doc p (fun x => {| style := style x; text := text x;
                            p_alignment := Some a |}).

(** Modelled from the spec: python-docx, which declares the paragraph
    object, is not among the sources.  The spec (section 9) says that the
    method called to append the disclaimer does not exist on it; the table
    lists the public members python-docx documents for a paragraph, of
    which [add_run] is the one that appends a run. *)
Definition Paragraph_members : list string :=
  [ "add_run"; "alignment"; "clear"; "insert_paragraph_before";
    "paragraph_format"; "runs"; "style"; "text" ]%string.

(** Attribute access on a paragraph object: the member's name when the
    object has it, [AttributeError] otherwise. *)
Definition getattr (name : string) : result string :=
  if existsb (String.eqb name) Paragraph_members then Ok name
  else Raise AttributeError.

End Docx.

Section ReportGenerator.

(** The bytes handed to the download button. *)
Variable Buffer : Type.

(** [date.today().strftime('%d %B %Y')]. *)
Variable today : string.

(** What follows the attribute access on [p]: the call with the disclaimer
    text and the [italic] flag of its result, then sections 1 to 3 and the
    save (from the call on line 66 to line 116), run on the document built
    so far and on paragraph [p]. *)
Variable and_then :
  string -> Docx.Document -> nat -> dict -> dict -> string -> result Buffer.

Definition generate_report (data results : dict) (method : string)
  : result Buffer :=
  let doc := Docx.new_document in
  let '(doc, head) :=
    Docx.add_heading doc "Judicial Pension Loss Calculation" 0 in
  let doc := Docx.set_alignment doc head Docx.CENTER in
  let '(doc, _) := Docx.add_paragraph doc ("Date: " ++ today) in
  let '(doc, p) :=
    Docx.add_paragraph doc
      "Based on: Principles for Compensating Pension Loss (4th Ed, 2021) & Ogden Tables 8th Ed." in
  add_runner <- Docx.getattr "add_runner" ;;
  and_then add_runner doc p data results method.

End ReportGenerator.

(** The method name the download button passes to [generate_report]. *)
Definition report_method (method : string) : string :=
  if String.eqb method "Simple (Contributions)" then "Simple"%string
  else "Complex"%string.

(** ** The totals and the gross-up in the script's own arithmetic *)

(** Python floats are IEEE 754 binary64 numbers, and so are the primitive
    floats used here: every operation rounds to nearest, ties to even.  The
    definitions repeat lines 267 to 274 and 315 operation for operation; the
    two gross-up lines of the Simple branch (171 and 172) are the same
    text. *)
Module Binary64.

(** [float(n)] for an integer of a widget. *)
Definition of_int (n : Z) : float :=
  if Z.ltb n 0 then PrimFloat.opp (PrimFloat.of_uint63 (Uint63.of_Z (- n)))
  else PrimFloat.of_uint63 (Uint63.of_Z n).

Definition py_max (a b : float) : float := if PrimFloat.ltb a b then b else a.

Definition py_min (a b : float) : float := if PrimFloat.ltb b a then b else a.

Definition py_truediv (a b : float) : result float :=
  if PrimFloat.eqb b 0 then Raise ZeroDivisionError
  else Ok (PrimFloat.div a b).

#[warnings="-inexact-float"] Definition tax_rate_options : list float :=
  [0.20; 0.40; 0.45]%float.

Definition total_raw (cap_val lump_val : float) : float :=
  PrimFloat.add cap_val lump_val.

Definition deduction (total_raw : float) (withdrawal : Z) : float :=
  PrimFloat.mul total_raw (PrimFloat.div (of_int withdrawal) 100).

Definition net_total (total_raw deduction : float) : float :=
  PrimFloat.sub total_raw deduction.

Definition taxable (net_total tax_free_remaining : float) : float :=
  py_max 0 (PrimFloat.sub net_total tax_free_remaining).

Definition gross_total (net_total tax_free_remaining taxable tax_rate : float)
  : result float :=
  q <- py_truediv taxable (PrimFloat.sub 1 tax_rate) ;;
  Ok (PrimFloat.add (py_min net_total tax_free_remaining) q).

Definition tax_element (gross_total net_total : float) : float :=
  PrimFloat.sub gross_total net_total.

Definition comp_data (cap_val lump_val : float) (withdrawal : Z)
  (tax_element : float) : list float :=
  [ PrimFloat.mul cap_val
      (PrimFloat.sub 1 (PrimFloat.div (of_int withdrawal) 100));
    PrimFloat.mul lump_val
      (PrimFloat.sub 1 (PrimFloat.div (of_int withdrawal) 100));
    tax_element ].

End Binary64.

(** ** The page as a whole *)

(** What the widgets of the Complex branch can return: the gender and
    retirement-age select boxes offer their options, the age box is bounded
    by 40 and 60 and the withdrawal slider by 0 and 100. *)
Definition widget_values (i : Complex.inputs) : Prop :=
  In (Complex.gender i) gender_options /\
  (40 <= Complex.claimant_age i <= 60)%Z /\
  In (Complex.ret_age i) ret_age_options /\
  (0 <= Complex.withdrawal i <= 100)%Z.

(** The widget values of one run of the script. *)
Record page_inputs : Type := {
  w_method : string;
  w_tax_rate : Q;
  w_tax_free_remaining : Q;
  w_gross_salary : Q;
  w_contrib : Q;
  w_period : Q;
  w_complex_inputs : Complex.inputs;
  w_generate_clicked : bool
}.

(** The branch the method radio selects, down to its report data. *)
Definition report_data (w : page_inputs) : result (dict * dict) :=
  if String.eqb (w_method w) "Simple (Contributions)" then
    v <- Simple.run (w_gross_salary w) (w_contrib w) (w_period w) (w_tax_rate w)
                    (w_tax_free_remaining w) ;;
    Ok (Simple.r_data (w_gross_salary w) (w_contrib w) (w_tax_rate w),
        Simple.r_res v)
  else
    v <- Complex.run (w_complex_inputs w) (w_tax_rate w) (w_tax_free_remaining w) ;;
    Ok (Complex.r_data (w_complex_inputs w) v (w_tax_rate w), Complex.r_res v).

Section Page.

Variable Buffer : Type.
Variable today : string.
Variable and_then :
  string -> Docx.Document -> nat -> dict -> dict -> string -> result Buffer.

(** One run of the script: the selected branch, then the download section;
    the result is the file offered for download, if any. *)
Definition page (w : page_inputs) : result (option Buffer) :=
  payload <- report_data w ;;
  if w_generate_clicked w then
    docx <- generate_report Buffer today and_then (fst payload) (snd payload)
              (report_method (w_method w)) ;;
    Ok (Some docx)
  else Ok None.

End Page.

(** * Properties *)

(** ** The Python helpers against the rationals' own order *)

Lemma py_lt_true (a b : Q) : py_lt a b = true <-> a < b.
Proof.
  unfold py_lt. rewrite Qlt_alt.
  destruct (a ?= b); split; intro H; congruence.
Qed.

Lemma py_lt_false (a b : Q) : py_lt a b = false <-> b <= a.
Proof.
  rewrite <- Bool.not_true_iff_false, py_lt_true.
  split; [apply Qnot_lt_le | apply Qle_not_lt].
Qed.

Lemma py_max_Qmax (a b : Q) : py_max a b == Qmax a b.
Proof.
  unfold py_max. destruct (py_lt a b) eqn:E.
  - apply py_lt_true in E. symmetry. apply Q.max_r. now apply Qlt_le_weak.
  - apply py_lt_false in E. symmetry. now apply Q.max_l.
Qed.

Lemma py_min_Qmin (a b : Q) : py_min a b == Qmin a b.
Proof.
  unfold py_min. destruct (py_lt b a) eqn:E.
  - apply py_lt_true in E. symmetry. apply Q.min_r. now apply Qlt_le_weak.
  - apply py_lt_false in E. symmetry. now apply Q.min_l.
Qed.

Lemma py_max_floor (x : Q) : x <= 0 -> py_max 0 x == 0.
Proof.
  intro H. unfold py_max.
  destruct (py_lt 0 x) eqn:E; [| reflexivity].
  apply py_lt_true in E. lra.
Qed.

Lemma py_max_keep (x : Q) : 0 <= x -> py_max 0 x == x.
Proof.
  intro H. unfold py_max.
  destruct (py_lt 0 x) eqn:E; [reflexivity |].
  apply py_lt_false in E. lra.
Qed.

Lemma py_max_nonneg (x : Q) : 0 <= py_max 0 x.
Proof.
  unfold py_max. destruct (py_lt 0 x) eqn:E.
  - apply py_lt_true in E. lra.
  - lra.
Qed.

Lemma py_max_monotone (x y : Q) : x <= y -> py_max 0 x <= py_max 0 y.
Proof.
  intro H. rewrite !py_max_Qmax. apply Q.max_le_compat_l. exact H.
Qed.

Lemma py_truediv_ok (a b : Q) : ~ b == 0 -> py_truediv a b = Ok (a / b).
Proof.
  intro H. unfold py_truediv.
  destruct (Qeq_bool b 0) eqn:E; [| reflexivity].
  apply Qeq_bool_iff in E. contradiction.
Qed.

Lemma py_truediv_zero (a b : Q) :
  b == 0 -> py_truediv a b = Raise ZeroDivisionError.
Proof.
  intro H. unfold py_truediv.
  apply Qeq_bool_iff in H. now rewrite H.
Qed.

(** ** Gross-up *)

Lemma simple_gross_total_ok (net_total tax_free_remaining taxable tax_rate : Q) :
  ~ tax_rate == 1 ->
  Simple.gross_total net_total tax_free_remaining taxable tax_rate
  = Ok (py_min net_total tax_free_remaining + taxable / (1 - tax_rate)).
Proof.
  intro H. unfold Simple.gross_total.
  rewrite py_truediv_ok; [reflexivity |]. lra.
Qed.

Lemma complex_gross_total_ok (net_total tax_free_remaining taxable tax_rate : Q) :
  ~ tax_rate == 1 ->
  Complex.gross_total net_total tax_free_remaining taxable tax_rate
  = Ok (py_min net_total tax_free_remaining + taxable / (1 - tax_rate)).
Proof.
  intro H. unfold Complex.gross_total.
  rewrite py_truediv_ok; [reflexivity |]. lra.
Qed.




(** C10. Whenever the net total does not exceed the tax-free allowance (so
    for every negative net total against a non-negative allowance), and the
    division is defined, the gross-up of both methods is the identity: the
    taxable portion is 0, the gross total is the net total and the tax
    element is 0. *)
Theorem gross_up_identity_below_allowance
  (net_total tax_free_allowance tax_rate : Q) :
  net_total <= tax_free_allowance ->
  ~ tax_rate == 1 ->
  Simple.taxable net_total tax_free_allowance == 0 /\
  (exists g,
      Simple.gross_total net_total tax_free_allowance
        (Simple.taxable net_total tax_free_allowance) tax_rate = Ok g /\
      g == net_total /\
      g - net_total == 0) /\
  Complex.taxable net_total tax_free_allowance == 0 /\
  (exists g,
      Complex.gross_total net_total tax_free_allowance
        (Complex.taxable net_total tax_free_allowance) tax_rate = Ok g /\
      g == net_total /\
      Complex.tax_element g net_total == 0).
Proof.
  intros Hle Hne.
  assert (Htax : py_max 0 (net_total - tax_free_allowance) == 0)
    by (apply py_max_floor; lra).
  assert (Hmin : py_min net_total tax_free_allowance == net_total).
  { rewrite py_min_Qmin. now apply Q.min_l. }
  assert (Hg :
    py_min net_total tax_free_allowance
    + py_max 0 (net_total - tax_free_allowance) / (1 - tax_rate) == net_total).
  { rewrite Hmin, Htax. field. lra. }
  split; [exact Htax |]. split; [| split; [exact Htax |]].
  - eexists. split; [apply simple_gross_total_ok; exact Hne |].
    split; [exact Hg |]. unfold Simple.taxable. rewrite Hg. ring.
  - eexists. split; [apply complex_gross_total_ok; exact Hne |].
    split; [exact Hg |]. unfold Complex.tax_element, Complex.taxable.
    rewrite Hg. ring.
Qed.

Lemma gross_up_identity_below_allowance_witness :
  -250 <= 100 /\ ~ 0.45 == 1 /\ Complex.taxable (-250) 100 == 0.
Proof.
  assert (H1 : -250 <= 100) by (intro H; discriminate H).
  assert (H2 : ~ 0.45 == 1) by (intro H; discriminate H).
  split; [exact H1 |]. split; [exact H2 |].
  exact (proj1 (proj2 (proj2
    (gross_up_identity_below_allowance (-250) 100 0.45 H1 H2)))).
Defined.

(** ** Simple method *)

(** C6. In the Simple method [annual_loss = gross_salary * (contrib / 100)]
    and [net_total = annual_loss * period], on the assignments themselves and
    on every run that reaches its end; with a salary of 30000, 5%, one year,
    a tax rate of 0.40 and no allowance the run gives a net total of 1500, a
    taxable portion of 1500 and a gross total of 2500. *)
Theorem simple_method_totals :
  (forall gross_salary contrib period,
     Simple.annual_loss gross_salary contrib == gross_salary * (contrib / 100) /\
     Simple.net_total (Simple.annual_loss gross_salary contrib) period
     == gross_salary * (contrib / 100) * period) /\
  (forall gross_salary contrib period tax_rate tax_free_remaining,
     ~ tax_rate == 1 ->
     exists v,
       Simple.run gross_salary contrib period tax_rate tax_free_remaining
       = Ok v /\
       Simple.v_annual_loss v == gross_salary * (contrib / 100) /\
       Simple.v_net_total v == Simple.v_annual_loss v * period) /\
  (exists v,
     Simple.run 30000 5 1 0.40 0 = Ok v /\
     Simple.v_net_total v == 1500 /\
     Simple.v_taxable v == 1500 /\
     Simple.v_gross_total v == 2500).
Proof.
  split; [| split].
  - intros. unfold Simple.net_total, Simple.annual_loss. split; reflexivity.
  - intros gross_salary contrib period tax_rate tax_free_remaining Hne.
    unfold Simple.run. rewrite simple_gross_total_ok by exact Hne. cbn [bind].
    eexists. split; [reflexivity |]. cbn.
    unfold Simple.net_total, Simple.annual_loss. split; reflexivity.
  - eexists. split; [vm_compute; reflexivity |].
    repeat split; reflexivity.
Qed.

Lemma simple_method_totals_witness :
  ~ 0.40 == 1 /\
  exists v, Simple.run 30000 5 1 0.40 0 = Ok v /\
            Simple.v_annual_loss v == 30000 * (5 / 100).
Proof.
  assert (H : ~ 0.40 == 1) by (intro E; discriminate E).
  split; [exact H |].
  destruct (proj1 (proj2 simple_method_totals) 30000 5 1 0.40 0 H)
    as (v & Hv & Ha & _).
  exists v. split; [exact Hv | exact Ha].
Defined.

(** ** The multiplier table and its lookup *)

Lemma in_py_range (lo hi x : Z) :
  In x (py_range lo hi) <-> (lo <= x < hi)%Z.
Proof.
  unfold py_range. rewrite in_map_iff. split.
  - intros [i [<- Hi]]. apply in_seq in Hi. lia.
  - intros H. exists (Z.to_nat (x - lo)). split; [lia |].
    apply in_seq. lia.
Qed.

Lemma in_ages (a : Z) : In a ages <-> (40 <= a <= 60)%Z.
Proof. unfold ages. rewrite in_py_range. lia. Qed.

Lemma Qeq_bool_inject_Z (a b : Z) :
  Qeq_bool (inject_Z a) (inject_Z b) = Z.eqb a b.
Proof.
  destruct (Z.eqb_spec a b) as [-> | Hne].
  - apply Qeq_bool_iff. reflexivity.
  - destruct (Qeq_bool (inject_Z a) (inject_Z b)) eqn:E; [| reflexivity].
    apply Qeq_bool_iff in E. unfold Qeq in E. simpl in E. lia.
Qed.

(** The floor leaves the ages of the first column as they are. *)
Lemma age_cell (a : Z) : In a ages -> py_max 0.0 (inject_Z a) = inject_Z a.
Proof.
  intro H. apply in_ages in H. unfold py_max.
  assert (E : py_lt 0.0 (inject_Z a) = true).
  { apply py_lt_true. unfold Qlt. simpl. lia. }
  now rewrite E.
Qed.

(** Selecting by a mask computed on one column of a table whose columns are
    all mapped from the same list of ages. *)
Lemma select_eq_mask_map (f g : Z -> Q) (v : Q) (l : list Z) :
  select (eq_mask (map f l) v) (map g l)
  = map g (filter (fun a => Qeq_bool (f a) v) l).
Proof.
  induction l as [| a l IH]; [reflexivity |].
  cbn [map eq_mask select filter]. fold (eq_mask (map f l) v).
  destruct (Qeq_bool (f a) v); cbn [map]; now rewrite IH.
Qed.

Lemma filter_age (claimant_age : Z) :
  filter (fun a => Qeq_bool (py_max 0.0 (inject_Z a)) (inject_Z claimant_age))
         ages
  = filter (fun a => Z.eqb a claimant_age) ages.
Proof.
  apply filter_ext_in. intros a Ha.
  rewrite (age_cell a Ha). apply Qeq_bool_inject_Z.
Qed.

Lemma filter_age_inside (claimant_age : Z) :
  (40 <= claimant_age <= 60)%Z ->
  filter (fun a => Z.eqb a claimant_age) ages = [claimant_age].
Proof.
  intro H.
  assert (E : claimant_age = (40 + Z.of_nat (Z.to_nat (claimant_age - 40)))%Z)
    by lia.
  assert (Hn : (Z.to_nat (claimant_age - 40) < 21)%nat) by lia.
  rewrite E. generalize dependent (Z.to_nat (claimant_age - 40)).
  intros n _ Hn.
  do 21 (destruct n as [| n]; [reflexivity |]). lia.
Qed.

Lemma filter_age_outside (claimant_age : Z) :
  (claimant_age < 40 \/ 60 < claimant_age)%Z ->
  filter (fun a => Z.eqb a claimant_age) ages = [].
Proof.
  intro H.
  assert (Hall : forall a, In a ages -> Z.eqb a claimant_age = false).
  { intros a Ha. apply in_ages in Ha. apply Z.eqb_neq. lia. }
  induction ages as [| a l IH]; [reflexivity |].
  cbn [filter]. rewrite (Hall a) by (left; reflexivity).
  apply IH. intros b Hb. apply Hall. now right.
Qed.

Lemma nth_error_ages (a : Z) :
  (40 <= a <= 60)%Z -> nth_error ages (Z.to_nat (a - 40)) = Some a.
Proof.
  intro H.
  assert (E : a = (40 + Z.of_nat (Z.to_nat (a - 40)))%Z) by lia.
  assert (Hn : (Z.to_nat (a - 40) < 21)%nat) by lia.
  rewrite E at 2. generalize dependent (Z.to_nat (a - 40)).
  intros n _ Hn.
  do 21 (destruct n as [| n]; [reflexivity |]). lia.
Qed.

Lemma table_age_column (gender : string) :
  getitem (fst (get_ogden_subset gender)) "Age at Trial"
  = Ok (map (fun a => py_max 0.0 (inject_Z a)) ages).
Proof.
  rewrite <- map_map.
  unfold get_ogden_subset.
  destruct (String.eqb gender "Male"); reflexivity.
Qed.

Lemma table_target_column (gender : string) (ret_age : Z) :
  In ret_age ret_age_options ->
  getitem (fst (get_ogden_subset gender)) (target_col ret_age)
  = Ok (map (cell gender ret_age) ages).
Proof.
  intro H.
  assert (E : map (cell gender ret_age) ages
              = map (fun x => py_max 0.0 x)
                    (linear (column_base gender ret_age)
                            (column_step gender ret_age))).
  { unfold linear. rewrite map_map. reflexivity. }
  rewrite E. unfold get_ogden_subset, column_base, column_step.
  destruct (String.eqb gender "Male");
    destruct H as [<- | [<- | [<- | []]]]; reflexivity.
Qed.

Lemma lookup_expr_table (gender : string) (claimant_age ret_age : Z) :
  In ret_age ret_age_options ->
  lookup_expr (fst (get_ogden_subset gender)) claimant_age ret_age
  = item0 (map (cell gender ret_age)
               (filter (fun a => Z.eqb a claimant_age) ages)).
Proof.
  intro H. unfold lookup_expr, loc_values.
  rewrite table_age_column. cbn [bind].
  rewrite (table_target_column gender ret_age H). cbn [bind].
  rewrite select_eq_mask_map, filter_age. reflexivity.
Qed.

Lemma lookup_inside (gender : string) (claimant_age ret_age : Z) :
  In ret_age ret_age_options -> (40 <= claimant_age <= 60)%Z ->
  lookup (fst (get_ogden_subset gender)) claimant_age ret_age
  = Ok (cell gender ret_age claimant_age, true).
Proof.
  intros H Hage. unfold lookup.
  rewrite (lookup_expr_table gender claimant_age ret_age H).
  rewrite (filter_age_inside claimant_age Hage). reflexivity.
Qed.

Lemma lookup_outside (gender : string) (claimant_age ret_age : Z) :
  In ret_age ret_age_options -> (claimant_age < 40 \/ 60 < claimant_age)%Z ->
  lookup (fst (get_ogden_subset gender)) claimant_age ret_age
  = Ok (0.0, false).
Proof.
  intros H Hage. unfold lookup.
  rewrite (lookup_expr_table gender claimant_age ret_age H).
  rewrite (filter_age_outside claimant_age Hage). reflexivity.
Qed.

Lemma column_step_nonneg (gender : string) (ret_age : Z) :
  0 <= column_step gender ret_age.
Proof.
  unfold column_step.
  destruct (String.eqb gender "Male"), (Z.eqb ret_age 60), (Z.eqb ret_age 65);
    intro H; discriminate H.
Qed.

Lemma cell_Qmax (gender : string) (ret_age a : Z) :
  cell gender ret_age a
  == Qmax 0 (column_base gender ret_age
             - column_step gender ret_age * inject_Z (a - 40)).
Proof.
  unfold cell. rewrite py_max_Qmax.
  assert (E : 0.0 == 0) by reflexivity.
  rewrite E. reflexivity.
Qed.

Lemma cell_nonneg (gender : string) (ret_age a : Z) :
  0 <= cell gender ret_age a.
Proof. rewrite cell_Qmax. apply Q.le_max_l. Qed.

Lemma cell_non_increasing (gender : string) (ret_age a1 a2 : Z) :
  (a1 <= a2)%Z -> cell gender ret_age a2 <= cell gender ret_age a1.
Proof.
  intro H. rewrite !cell_Qmax. apply Q.max_le_compat_l.
  assert (Hs := column_step_nonneg gender ret_age).
  assert (Ha : inject_Z (a1 - 40) <= inject_Z (a2 - 40)).
  { rewrite <- Zle_Qle. lia. }
  nra.
Qed.

Lemma nth_error_column (gender : string) (ret_age a : Z) :
  (40 <= a <= 60)%Z ->
  nth_error (map (cell gender ret_age) ages) (Z.to_nat (a - 40))
  = Some (cell gender ret_age a).
Proof.
  intro H. rewrite nth_error_map, (nth_error_ages a H). reflexivity.
Qed.

(** C5. For every gender, every retirement-age column of the select box and
    all ages [a1 <= a2] of the band 40..60, the generated column holds at the
    rows of [a1] and [a2] values that are non-negative and do not increase
    with age; each is the linear formula floored at zero, and no cell of the
    column is negative. *)
Theorem table_nonnegative_non_increasing
  (gender : string) (ret_age a1 a2 : Z) :
  In ret_age ret_age_options ->
  (40 <= a1)%Z -> (a1 <= a2)%Z -> (a2 <= 60)%Z ->
  exists col v1 v2,
    getitem (fst (get_ogden_subset gender)) (target_col ret_age) = Ok col /\
    nth_error col (Z.to_nat (a1 - 40)) = Some v1 /\
    nth_error col (Z.to_nat (a2 - 40)) = Some v2 /\
    0 <= v1 /\ 0 <= v2 /\ v2 <= v1 /\
    v1 == Qmax 0 (column_base gender ret_age
                  - column_step gender ret_age * inject_Z (a1 - 40)) /\
    v2 == Qmax 0 (column_base gender ret_age
                  - column_step gender ret_age * inject_Z (a2 - 40)) /\
    Forall (fun c => 0 <= c) col.
Proof.
  intros Hret H1 H12 H2.
  exists (map (cell gender ret_age) ages),
         (cell gender ret_age a1), (cell gender ret_age a2).
  split; [apply table_target_column; exact Hret |].
  split; [apply nth_error_column; lia |].
  split; [apply nth_error_column; lia |].
  split; [apply cell_nonneg |]. split; [apply cell_nonneg |].
  split; [apply cell_non_increasing; exact H12 |].
  split; [apply cell_Qmax |]. split; [apply cell_Qmax |].
  apply Forall_forall. intros c Hc. apply in_map_iff in Hc.
  destruct Hc as [a [<- _]]. apply cell_nonneg.
Qed.

Lemma table_nonnegative_non_increasing_witness :
  exists col v1 v2,
    getitem (fst (get_ogden_subset "Female")) (target_col 68) = Ok col /\
    nth_error col (Z.to_nat (45 - 40)) = Some v1 /\
    nth_error col (Z.to_nat (52 - 40)) = Some v2 /\
    0 <= v1 /\ 0 <= v2 /\ v2 <= v1.
Proof.
  assert (Hret : In 68%Z ret_age_options) by (simpl; auto).
  destruct (table_nonnegative_non_increasing "Female" 68 45 52 Hret)
    as (col & v1 & v2 & Hc & Hn1 & Hn2 & Hp1 & Hp2 & Hle & _); try lia.
  exists col, v1, v2. repeat split; assumption.
Defined.

(** C7. For every gender and every retirement age of the select box: with an
    age outside 40..60 the lookup raises nothing and yields the pair
    [(0.0, False)], after which the page shows the warning asking for a
    manual entry and the multiplier is what the operator enters; with an age
    inside the band it yields [(v, True)] where [v] is the cell of the row of
    exactly that age in the column of that retirement age (the formula at
    that age, no other row involved), which is the default multiplier. *)
Theorem lookup_band (gender : string) (claimant_age ret_age : Z) :
  In ret_age ret_age_options ->
  let df_ogden := fst (get_ogden_subset gender) in
  ((claimant_age < 40 \/ 60 < claimant_age)%Z ->
     lookup df_ogden claimant_age ret_age = Ok (0.0, false) /\
     lookup_display df_ogden claimant_age ret_age false
     = Warning "Age outside demo range (40-60). Enter manually." /\
     forall m, multiplier (Some m) 0.0 = m) /\
  ((40 <= claimant_age <= 60)%Z ->
     exists col v,
       lookup df_ogden claimant_age ret_age = Ok (v, true) /\
       getitem df_ogden (target_col ret_age) = Ok col /\
       nth_error col (Z.to_nat (claimant_age - 40)) = Some v /\
       v == Qmax 0 (column_base gender ret_age
                    - column_step gender ret_age
                      * inject_Z (claimant_age - 40)) /\
       multiplier None v = v).
Proof.
  intros Hret df_ogden. split.
  - intro Hout. split; [apply lookup_outside; assumption |].
    split; reflexivity.
  - intro Hin.
    exists (map (cell gender ret_age) ages), (cell gender ret_age claimant_age).
    split; [apply lookup_inside; assumption |].
    split; [apply table_target_column; exact Hret |].
    split; [apply nth_error_column; exact Hin |].
    split; [apply cell_Qmax | reflexivity].
Qed.

Lemma lookup_band_witness :
  lookup (fst (get_ogden_subset "Male")) 72 65 = Ok (0.0, false) /\
  exists v, lookup (fst (get_ogden_subset "Male")) 50 65 = Ok (v, true) /\
            v == 16.
Proof.
  assert (Hret : In 65%Z ret_age_options) by (simpl; auto).
  split.
  - apply (proj1 (lookup_band "Male" 72 65 Hret)). lia.
  - destruct (proj2 (lookup_band "Male" 50 65 Hret))
      as (col & v & Hv & _ & _ & Hq & _); [lia |].
    exists v. split; [exact Hv |]. rewrite Hq. reflexivity.
Defined.

(** ** Report generator *)

(** C9. Whatever the payload, the method and the rest of the function, the
    attribute access [p.add_runner] fails, the paragraph having no such
    member, so that [generate_report] raises [AttributeError] and returns no
    document; [add_run], the member that appends a run, exists. *)
Theorem generate_report_always_raises
  (Buffer : Type) (today : string)
  (and_then : string -> Docx.Document -> nat -> dict -> dict -> string
              -> result Buffer)
  (data results : dict) (method : string) :
  Docx.getattr "add_runner" = Raise AttributeError /\
  Docx.getattr "add_run" = Ok "add_run"%string /\
  generate_report Buffer today and_then data results method
  = Raise AttributeError /\
  (forall buffer,
     generate_report Buffer today and_then data results method <> Ok buffer).
Proof.
  assert (H : generate_report Buffer today and_then data results method
              = Raise AttributeError) by reflexivity.
  split; [reflexivity |]. split; [reflexivity |]. split; [exact H |].
  intros buffer E. rewrite H in E. discriminate E.
Qed.

(** ** Complex method *)

Lemma lookup_total (gender : string) (claimant_age ret_age : Z) :
  In ret_age ret_age_options ->
  exists auto_multiplier found_in_table,
    lookup (fst (get_ogden_subset gender)) claimant_age ret_age
    = Ok (auto_multiplier, found_in_table).
Proof.
  intro H.
  destruct (Z_lt_dec claimant_age 40) as [Hlo | Hlo];
    [| destruct (Z_lt_dec 60 claimant_age) as [Hhi | Hhi]].
  - exists 0.0, false. apply lookup_outside; [exact H | lia].
  - exists 0.0, false. apply lookup_outside; [exact H | lia].
  - exists (cell gender ret_age claimant_age), true.
    apply lookup_inside; [exact H | lia].
Qed.

(** With a retirement age of the select box and a defined division the
    branch runs to its end, whatever the other widgets hold. *)
Lemma complex_run_ok (i : Complex.inputs) (tax_rate tax_free_remaining : Q) :
  In (Complex.ret_age i) ret_age_options ->
  ~ tax_rate == 1 ->
  exists v,
    Complex.run i tax_rate tax_free_remaining = Ok v /\
    Complex.bound_by_run i tax_rate tax_free_remaining v.
Proof.
  intros Hret Hne.
  destruct (lookup_total (Complex.gender i) (Complex.claimant_age i)
              (Complex.ret_age i) Hret) as (auto & found & Hlook).
  unfold Complex.run.
  destruct (get_ogden_subset (Complex.gender i)) as [df_ogden table_name] eqn:E.
  cbn [fst snd] in Hlook. rewrite Hlook. cbn [bind].
  rewrite complex_gross_total_ok by exact Hne. cbn [bind].
  eexists. split; [reflexivity |].
  unfold Complex.bound_by_run. rewrite E. cbn.
  rewrite complex_gross_total_ok by exact Hne.
  repeat split; try reflexivity. exact Hlook.
Qed.

Lemma discount_base : 1 + -0.0025 == 0.9975.
Proof. reflexivity. Qed.

Lemma discount_factor_as_inverse (yrs : Z) :
  Complex.ls_discount_factor yrs == (/ 0.9975) ^ yrs.
Proof.
  unfold Complex.ls_discount_factor.
  rewrite discount_base, Qpower_opp, Qinv_power. reflexivity.
Qed.

Lemma discount_factor_above_one (yrs : Z) :
  (0 < yrs)%Z -> 1 < Complex.ls_discount_factor yrs.
Proof.
  intro H. rewrite discount_factor_as_inverse.
  apply Qpower_1_lt; [reflexivity | exact H].
Qed.

Lemma discount_factor_below_one (yrs : Z) :
  (yrs < 0)%Z ->
  0 < Complex.ls_discount_factor yrs /\ Complex.ls_discount_factor yrs < 1.
Proof.
  intro H.
  assert (Hpos : 0 < Complex.ls_discount_factor yrs).
  { rewrite discount_factor_as_inverse. apply Qpower_0_lt. reflexivity. }
  split; [exact Hpos |].
  assert (Hinv : 1 < Complex.ls_discount_factor (- yrs))
    by (apply discount_factor_above_one; lia).
  assert (Hmul :
    Complex.ls_discount_factor yrs * Complex.ls_discount_factor (- yrs) == 1).
  { rewrite !discount_factor_as_inverse.
    rewrite <- Qpower_plus by (intro E; discriminate E).
    replace (yrs + - yrs)%Z with 0%Z by lia. reflexivity. }
  nra.
Qed.

(** C2. For every number of years to retirement, negative and zero included,
    the discount factor is [0.9975 ^ (- years)]: above 1 for a positive
    number of years, 1 for none, between 0 and 1 for a negative one; a run of
    the Complex method takes the years as [ret_age - claimant_age], whatever
    its sign, and its discount factor is the formula at that number. *)
Theorem discount_factor_formula :
  (forall yrs_to_retire : Z,
     Complex.ls_discount_factor yrs_to_retire == 0.9975 ^ (- yrs_to_retire) /\
     ((0 < yrs_to_retire)%Z -> 1 < Complex.ls_discount_factor yrs_to_retire) /\
     (yrs_to_retire = 0%Z -> Complex.ls_discount_factor yrs_to_retire == 1) /\
     ((yrs_to_retire < 0)%Z ->
        0 < Complex.ls_discount_factor yrs_to_retire /\
        Complex.ls_discount_factor yrs_to_retire < 1)) /\
  (forall i tax_rate tax_free_remaining,
     In (Complex.ret_age i) ret_age_options ->
     ~ tax_rate == 1 ->
     exists v,
       Complex.run i tax_rate tax_free_remaining = Ok v /\
       Complex.v_yrs_to_retire v
       = (Complex.ret_age i - Complex.claimant_age i)%Z /\
       Complex.v_ls_discount_factor v
       == 0.9975 ^ (- (Complex.ret_age i - Complex.claimant_age i))).
Proof.
  split.
  - intro yrs. split; [| split; [| split]].
    + unfold Complex.ls_discount_factor. rewrite discount_base. reflexivity.
    + apply discount_factor_above_one.
    + intros ->. reflexivity.
    + apply discount_factor_below_one.
  - intros i tax_rate tax_free_remaining Hret Hne.
    destruct (complex_run_ok i tax_rate tax_free_remaining Hret Hne)
      as (v & Hrun & Hb).
    exists v. split; [exact Hrun |].
    destruct Hb as (_ & _ & _ & _ & _ & Hy & Hd & _).
    split; [exact Hy |].
    rewrite Hd, Hy. unfold Complex.yrs_to_retire, Complex.ls_discount_factor.
    rewrite discount_base. reflexivity.
Qed.

Lemma discount_factor_formula_witness :
  (0 < 15)%Z /\ 1 < Complex.ls_discount_factor 15 /\
  (-3 < 0)%Z /\ Complex.ls_discount_factor (-3) < 1.
Proof.
  assert (H15 : (0 < 15)%Z) by lia.
  assert (H3 : (-3 < 0)%Z) by lia.
  split; [exact H15 |].
  split; [exact (proj1 (proj2 (proj1 discount_factor_formula 15%Z)) H15) |].
  split; [exact H3 |].
  exact (proj2 (proj2 (proj2 (proj2 (proj1 discount_factor_formula (-3)%Z))) H3)).
Defined.




(** C4. The withdrawal deduction is [total_raw * (withdrawal / 100)] and
    the net total is the raw total less that deduction, for every raw total
    and percentage; on every run of the Complex method that reaches its end
    the raw total is the capital value plus the lump-sum loss, and the three
    values of the components chart are the capital value and the lump-sum
    loss, each times [1 - withdrawal / 100], and the tax element, which is
    the gross total less the net total. *)
Theorem withdrawal_assignments :
  (forall (total_raw : Q) (withdrawal : Z),
     Complex.deduction total_raw withdrawal
     == total_raw * (inject_Z withdrawal / 100) /\
     Complex.net_total total_raw (Complex.deduction total_raw withdrawal)
     == total_raw - total_raw * (inject_Z withdrawal / 100)) /\
  (forall i tax_rate tax_free_remaining,
     In (Complex.ret_age i) ret_age_options ->
     ~ tax_rate == 1 ->
     exists v,
       Complex.run i tax_rate tax_free_remaining = Ok v /\
       Complex.v_total_raw v == Complex.v_cap_val v + Complex.v_lump_val v /\
       Complex.v_deduction v
       == Complex.v_total_raw v * (inject_Z (Complex.withdrawal i) / 100) /\
       Complex.v_net_total v
       == Complex.v_total_raw v - Complex.v_deduction v /\
       Complex.v_tax_element v
       == Complex.v_gross_total v - Complex.v_net_total v /\
       exists c1 c2 c3,
         Complex.v_comp_data v = [c1; c2; c3] /\
         c1 == Complex.v_cap_val v
               * (1 - inject_Z (Complex.withdrawal i) / 100) /\
         c2 == Complex.v_lump_val v
               * (1 - inject_Z (Complex.withdrawal i) / 100) /\
         c3 == Complex.v_tax_element v).
Proof.
  split.
  - intros total_raw withdrawal.
    unfold Complex.net_total, Complex.deduction. split; reflexivity.
  - intros i tax_rate tax_free_remaining Hret Hne.
    destruct (complex_run_ok i tax_rate tax_free_remaining Hret Hne)
      as (v & Hrun & Hb).
    exists v. split; [exact Hrun |].
    destruct Hb as (_ & _ & _ & _ & _ & _ & _ & _ & _ & _ & _ & _ & Htr & Hde
                    & Hnt & _ & _ & Hte & Hcd).
    split; [rewrite Htr; reflexivity |].
    split; [rewrite Hde; reflexivity |].
    split; [rewrite Hnt; reflexivity |].
    split; [rewrite Hte; reflexivity |].
    do 3 eexists. split; [rewrite Hcd; reflexivity |].
    repeat split; reflexivity.
Qed.

Lemma withdrawal_assignments_witness :
  In (Complex.ret_age Complex.defaults) ret_age_options /\
  ~ 0.40 == 1 /\
  exists v,
    Complex.run Complex.defaults 0.40 0 = Ok v /\
    Complex.v_net_total v
    == Complex.v_total_raw v - Complex.v_deduction v.
Proof.
  assert (Hret : In (Complex.ret_age Complex.defaults) ret_age_options)
    by (simpl; auto).
  assert (Hne : ~ 0.40 == 1) by (intro E; discriminate E).
  split; [exact Hret |]. split; [exact Hne |].
  destruct (proj2 withdrawal_assignments Complex.defaults 0.40 0 Hret Hne)
    as (v & Hrun & _ & _ & Hnet & _).
  exists v. split; [exact Hrun | exact Hnet].
Defined.

(** C4, as stated, fails on the script's arithmetic: with a capital value
    of 100008, a lump-sum loss of 31000, a withdrawal of 5, no allowance and
    the rate 0.4 the net total is 124457.6 while
    [total_raw * (1 - 5 / 100)] is 124457.59999999999, and the three chart
    values add up, in whichever order, to 207429.3333333333 while the gross
    total is 207429.33333333334. *)
#[warnings="-inexact-float"] Lemma withdrawal_identity_fails_in_binary64 :
  let total_raw := Binary64.total_raw 100008 31000 in
  let net_total := Binary64.net_total total_raw (Binary64.deduction total_raw 5) in
  let taxable := Binary64.taxable net_total 0 in
  total_raw = 131008%float /\
  net_total = 124457.6%float /\
  PrimFloat.mul total_raw (PrimFloat.sub 1 (PrimFloat.div (Binary64.of_int 5) 100))
  = 124457.59999999999%float /\
  PrimFloat.eqb net_total
    (PrimFloat.mul total_raw
       (PrimFloat.sub 1 (PrimFloat.div (Binary64.of_int 5) 100))) = false /\
  Binary64.gross_total net_total 0 taxable 0.4 = Ok 207429.33333333334%float /\
  exists c1 c2 c3,
    Binary64.comp_data 100008 31000 5
      (Binary64.tax_element 207429.33333333334 net_total) = [c1; c2; c3] /\
    PrimFloat.add (PrimFloat.add c1 c2) c3 = 207429.3333333333%float /\
    PrimFloat.add c1 (PrimFloat.add c2 c3) = 207429.3333333333%float /\
    PrimFloat.add (PrimFloat.add c1 c3) c2 = 207429.3333333333%float /\
    PrimFloat.eqb 207429.3333333333 207429.33333333334 = false.
Proof.
  cbv zeta. repeat split; try (vm_compute; reflexivity).
  do 3 eexists. repeat split; vm_compute; reflexivity.
Qed.

(** * Further properties of the code *)

(** ** Gross-up *)

(** Which side of the allowance the net total falls on decides both the
    taxable portion and the untaxed part. *)
Lemma gross_up_cases (net_total allowance : Q) :
  (net_total <= allowance /\
   py_max 0 (net_total - allowance) == 0 /\
   py_min net_total allowance == net_total) \/
  (allowance < net_total /\
   py_max 0 (net_total - allowance) == net_total - allowance /\
   py_min net_total allowance == allowance).
Proof.
  destruct (Qlt_le_dec allowance net_total) as [H | H].
  - right. split; [exact H |]. split.
    + apply py_max_keep. lra.
    + rewrite py_min_Qmin. apply Q.min_r. lra.
  - left. split; [exact H |]. split.
    + apply py_max_floor. lra.
    + rewrite py_min_Qmin. now apply Q.min_l.
Qed.

(** Both methods gross up by the same value. *)
Lemma gross_total_both (net_total allowance tax_rate : Q) :
  ~ tax_rate == 1 ->
  Simple.gross_total net_total allowance (Simple.taxable net_total allowance)
    tax_rate
  = Ok (py_min net_total allowance
        + py_max 0 (net_total - allowance) / (1 - tax_rate)) /\
  Complex.gross_total net_total allowance
    (Complex.taxable net_total allowance) tax_rate
  = Ok (py_min net_total allowance
        + py_max 0 (net_total - allowance) / (1 - tax_rate)).
Proof.
  intro H. split.
  - apply simple_gross_total_ok, H.
  - apply complex_gross_total_ok, H.
Qed.

(** A larger net total never gives a smaller gross total. *)
Theorem gross_total_monotone_in_net (net1 net2 allowance tax_rate : Q) :
  tax_rate < 1 -> net1 <= net2 ->
  exists g1 g2,
    Simple.gross_total net1 allowance (Simple.taxable net1 allowance)
      tax_rate = Ok g1 /\
    Simple.gross_total net2 allowance (Simple.taxable net2 allowance)
      tax_rate = Ok g2 /\
    Complex.gross_total net1 allowance (Complex.taxable net1 allowance)
      tax_rate = Ok g1 /\
    Complex.gross_total net2 allowance (Complex.taxable net2 allowance)
      tax_rate = Ok g2 /\
    g1 <= g2.
Proof.
  intros Hr Hle.
  destruct (gross_total_both net1 allowance tax_rate) as [Hs1 Hc1]; [lra |].
  destruct (gross_total_both net2 allowance tax_rate) as [Hs2 Hc2]; [lra |].
  do 2 eexists. repeat (split; [eassumption |]).
  assert (Hk : 0 < / (1 - tax_rate)) by (apply Qinv_lt_0_compat; lra).
  assert (Hk1 : (1 - tax_rate) * / (1 - tax_rate) == 1)
    by (apply Qmult_inv_r; lra).
  unfold Qdiv.
  destruct (gross_up_cases net1 allowance)
    as [(H1 & Ht1 & Hm1) | (H1 & Ht1 & Hm1)];
    destruct (gross_up_cases net2 allowance)
      as [(H2 & Ht2 & Hm2) | (H2 & Ht2 & Hm2)];
    rewrite Ht1, Hm1, Ht2, Hm2; nra.
Qed.

Lemma gross_total_monotone_in_net_witness :
  0.20 < 1 /\ -100 <= 2000 /\
  exists g1 g2,
    Simple.gross_total (-100) 500 (Simple.taxable (-100) 500) 0.20 = Ok g1 /\
    Simple.gross_total 2000 500 (Simple.taxable 2000 500) 0.20 = Ok g2 /\
    g1 <= g2.
Proof.
  assert (Hr : 0.20 < 1) by reflexivity.
  assert (Hle : -100 <= 2000) by (intro E; discriminate E).
  split; [exact Hr |]. split; [exact Hle |].
  destruct (gross_total_monotone_in_net (-100) 2000 500 0.20 Hr Hle)
    as (g1 & g2 & H1 & H2 & _ & _ & H).
  exists g1, g2. split; [exact H1 |]. split; [exact H2 | exact H].
Defined.

(** ** Complex method: the withdrawal deduction *)

(** With the slider between 0 and 100 the deduction is a part of the raw
    total: the net total lies between 0 and the raw total, is the raw total
    at 0 and is 0 at 100. *)
Theorem withdrawal_bounds
  (i : Complex.inputs) (tax_rate tax_free_remaining : Q) :
  In (Complex.ret_age i) ret_age_options ->
  ~ tax_rate == 1 ->
  (0 <= Complex.withdrawal i <= 100)%Z ->
  exists v,
    Complex.run i tax_rate tax_free_remaining = Ok v /\
    (0 <= Complex.v_total_raw v ->
       0 <= Complex.v_deduction v <= Complex.v_total_raw v /\
       0 <= Complex.v_net_total v <= Complex.v_total_raw v) /\
    (Complex.v_total_raw v <= 0 ->
       Complex.v_total_raw v <= Complex.v_net_total v <= 0) /\
    (Complex.withdrawal i = 0%Z ->
       Complex.v_net_total v == Complex.v_total_raw v) /\
    (Complex.withdrawal i = 100%Z -> Complex.v_net_total v == 0).
Proof.
  intros Hret Hne Hw.
  destruct (complex_run_ok i tax_rate tax_free_remaining Hret Hne)
    as (v & Hrun & Hb).
  exists v. split; [exact Hrun |].
  destruct Hb as (_ & _ & _ & _ & _ & _ & _ & _ & _ & _ & _ & _ & _ & Hde
                  & Hnt & _).
  rewrite Hnt, Hde. unfold Complex.net_total, Complex.deduction.
  set (p := inject_Z (Complex.withdrawal i) / 100).
  assert (Hp : 0 <= p <= 1).
  { assert (H1 : 0 <= inject_Z (Complex.withdrawal i))
      by (change 0 with (inject_Z 0); rewrite <- Zle_Qle; lia).
    assert (H2 : inject_Z (Complex.withdrawal i) <= 100)
      by (change 100 with (inject_Z 100); rewrite <- Zle_Qle; lia).
    assert (Hp : p == inject_Z (Complex.withdrawal i) * (1 # 100))
      by reflexivity.
    rewrite Hp. lra. }
  split; [| split; [| split]].
  - intro Ht. nra.
  - intro Ht. nra.
  - intro E. unfold p. rewrite E. field.
  - intro E. unfold p. rewrite E. field.
Qed.

Lemma withdrawal_bounds_witness :
  In (Complex.ret_age Complex.defaults) ret_age_options /\
  ~ 0.45 == 1 /\
  exists v,
    Complex.run Complex.defaults 0.45 0 = Ok v /\
    (0 <= Complex.v_total_raw v ->
       0 <= Complex.v_net_total v <= Complex.v_total_raw v).
Proof.
  assert (Hret : In (Complex.ret_age Complex.defaults) ret_age_options)
    by (simpl; auto).
  assert (Hne : ~ 0.45 == 1) by (intro E; discriminate E).
  assert (Hw : (0 <= Complex.withdrawal Complex.defaults <= 100)%Z)
    by (simpl; lia).
  split; [exact Hret |]. split; [exact Hne |].
  destruct (withdrawal_bounds Complex.defaults 0.45 0 Hret Hne Hw)
    as (v & Hrun & Hpos & _).
  exists v. split; [exact Hrun |].
  intro Ht. exact (proj2 (Hpos Ht)).
Defined.

(** ** The table: what the floor, the band and the column names do *)

Lemma age_offset_bounds (a : Z) :
  (40 <= a <= 60)%Z -> 0 <= inject_Z (a - 40) /\ inject_Z (a - 40) <= 20.
Proof.
  intro H. split.
  - change 0 with (inject_Z 0). rewrite <- Zle_Qle. lia.
  - change 20 with (inject_Z 20). rewrite <- Zle_Qle. lia.
Qed.

Lemma column_step_pos (gender : string) (ret_age : Z) :
  0 < column_step gender ret_age.
Proof.
  unfold column_step.
  destruct (String.eqb gender "Male"), (Z.eqb ret_age 60), (Z.eqb ret_age 65);
    reflexivity.
Qed.

(** Inside the band the linear formula stays at 5.5 or above. *)
Lemma linear_value_floor (gender : string) (ret_age a : Z) :
  (40 <= a <= 60)%Z ->
  5.5 <= column_base gender ret_age
         - column_step gender ret_age * inject_Z (a - 40).
Proof.
  intro H. destruct (age_offset_bounds a H) as [H0 H20].
  unfold column_base, column_step.
  destruct (String.eqb gender "Male"), (Z.eqb ret_age 60), (Z.eqb ret_age 65);
    lra.
Qed.

Lemma cell_unfloored (gender : string) (ret_age a : Z) :
  (40 <= a <= 60)%Z ->
  cell gender ret_age a
  == column_base gender ret_age
     - column_step gender ret_age * inject_Z (a - 40).
Proof.
  intro H. rewrite cell_Qmax. apply Q.max_r.
  assert (Hf := linear_value_floor gender ret_age a H). lra.
Qed.

(** On the generated band the floor at zero never acts: every multiplier the
    lookup finds is the linear value itself, is at least 5.5, and is
    strictly smaller at every later age of the band. *)
Theorem multipliers_unfloored_and_decreasing
  (gender : string) (ret_age a1 a2 : Z) :
  In ret_age ret_age_options ->
  (40 <= a1)%Z -> (a1 < a2)%Z -> (a2 <= 60)%Z ->
  exists v1 v2,
    lookup (fst (get_ogden_subset gender)) a1 ret_age = Ok (v1, true) /\
    lookup (fst (get_ogden_subset gender)) a2 ret_age = Ok (v2, true) /\
    v1 == column_base gender ret_age
          - column_step gender ret_age * inject_Z (a1 - 40) /\
    v2 == column_base gender ret_age
          - column_step gender ret_age * inject_Z (a2 - 40) /\
    5.5 <= v2 /\ v2 < v1.
Proof.
  intros Hret H1 H12 H2.
  exists (cell gender ret_age a1), (cell gender ret_age a2).
  split; [apply lookup_inside; [exact Hret | lia] |].
  split; [apply lookup_inside; [exact Hret | lia] |].
  assert (E1 := cell_unfloored gender ret_age a1 ltac:(lia)).
  assert (E2 := cell_unfloored gender ret_age a2 ltac:(lia)).
  split; [exact E1 |]. split; [exact E2 |].
  split.
  - rewrite E2. apply linear_value_floor. lia.
  - rewrite E1, E2.
    assert (Hs := column_step_pos gender ret_age).
    assert (Ha : inject_Z (a1 - 40) < inject_Z (a2 - 40))
      by (rewrite <- Zlt_Qlt; lia).
    nra.
Qed.

Lemma multipliers_unfloored_and_decreasing_witness :
  exists v1 v2,
    lookup (fst (get_ogden_subset "Male")) 40 60 = Ok (v1, true) /\
    lookup (fst (get_ogden_subset "Male")) 60 60 = Ok (v2, true) /\
    5.5 <= v2 /\ v2 < v1.
Proof.
  assert (Hret : In 60%Z ret_age_options) by (simpl; auto).
  destruct (multipliers_unfloored_and_decreasing "Male" 60 40 60 Hret)
    as (v1 & v2 & H1 & H2 & _ & _ & Hf & Hlt); try lia.
  exists v1, v2. repeat split; assumption.
Defined.

(** The lookup finds a multiplier exactly for the ages 40 to 60; the value it
    hands on is 0 exactly when it found none. *)
Theorem lookup_found_iff_in_band (gender : string) (claimant_age ret_age : Z) :
  In ret_age ret_age_options ->
  exists auto_multiplier found_in_table,
    lookup (fst (get_ogden_subset gender)) claimant_age ret_age
    = Ok (auto_multiplier, found_in_table) /\
    (found_in_table = true <-> (40 <= claimant_age <= 60)%Z) /\
    (found_in_table = false -> auto_multiplier == 0) /\
    (found_in_table = true -> 0 < auto_multiplier).
Proof.
  intro Hret.
  destruct (Z_lt_dec claimant_age 40) as [Hlo | Hlo];
    [| destruct (Z_lt_dec 60 claimant_age) as [Hhi | Hhi]].
  - exists 0.0, false. split; [apply lookup_outside; [exact Hret | lia] |].
    split; [split; [discriminate | lia] |].
    split; [reflexivity | discriminate].
  - exists 0.0, false. split; [apply lookup_outside; [exact Hret | lia] |].
    split; [split; [discriminate | lia] |].
    split; [reflexivity | discriminate].
  - exists (cell gender ret_age claimant_age), true.
    split; [apply lookup_inside; [exact Hret | lia] |].
    split; [split; [lia | reflexivity] |].
    split; [discriminate |]. intros _.
    assert (Hf := linear_value_floor gender ret_age claimant_age ltac:(lia)).
    rewrite cell_unfloored by lia. lra.
Qed.

Lemma lookup_found_iff_in_band_witness :
  In 68%Z ret_age_options /\
  exists auto_multiplier found_in_table,
    lookup (fst (get_ogden_subset "Female")) 61 68
    = Ok (auto_multiplier, found_in_table) /\
    found_in_table = false /\ auto_multiplier == 0.
Proof.
  assert (Hret : In 68%Z ret_age_options) by (simpl; auto).
  split; [exact Hret |].
  destruct (lookup_found_iff_in_band "Female" 61 68 Hret)
    as (m & f & Hl & Hiff & Hz & _).
  exists m, f. split; [exact Hl |].
  assert (Hf : f = false).
  { destruct f; [| reflexivity]. destruct Hiff as [Hiff _].
    specialize (Hiff eq_refl). lia. }
  split; [exact Hf | exact (Hz Hf)].
Defined.

(** At every age of the band and in every column the female table's
    multiplier is at least 1.5 above the male table's. *)
Theorem female_multiplier_above_male (claimant_age ret_age : Z) :
  In ret_age ret_age_options ->
  (40 <= claimant_age <= 60)%Z ->
  exists m f,
    lookup (fst (get_ogden_subset "Male")) claimant_age ret_age
    = Ok (m, true) /\
    lookup (fst (get_ogden_subset "Female")) claimant_age ret_age
    = Ok (f, true) /\
    m + 1.5 <= f.
Proof.
  intros Hret Hage.
  exists (cell "Male" ret_age claimant_age),
         (cell "Female" ret_age claimant_age).
  split; [apply lookup_inside; assumption |].
  split; [apply lookup_inside; assumption |].
  rewrite !cell_unfloored by exact Hage.
  destruct (age_offset_bounds claimant_age Hage) as [H0 H20].
  destruct Hret as [<- | [<- | [<- | []]]];
    unfold column_base, column_step; cbn [String.eqb Ascii.eqb Bool.eqb Z.eqb
      Pos.eqb]; lra.
Qed.

Lemma female_multiplier_above_male_witness :
  exists m f,
    lookup (fst (get_ogden_subset "Male")) 50 65 = Ok (m, true) /\
    lookup (fst (get_ogden_subset "Female")) 50 65 = Ok (f, true) /\
    m + 1.5 <= f.
Proof.
  assert (Hret : In 65%Z ret_age_options) by (simpl; auto).
  assert (Hage : (40 <= 50 <= 60)%Z) by lia.
  exact (female_multiplier_above_male 50 65 Hret Hage).
Defined.

(** *** Column names *)

Lemma to_int_not_nil (n : Z) :
  Z.to_int n <> Decimal.Pos Decimal.Nil /\
  Z.to_int n <> Decimal.Neg Decimal.Nil.
Proof.
  destruct n as [| p | p]; cbn [Z.to_int]; split; try discriminate;
    intro E; injection E as E; exact (DecimalPos.Unsigned.to_uint_nonnil p E).
Qed.

(** Distinct integers print differently. *)
Lemma py_str_int_inj (n m : Z) : py_str_int n = py_str_int m -> n = m.
Proof.
  unfold py_str_int. intro E.
  apply (f_equal NilZero.int_of_string) in E.
  destruct (to_int_not_nil n) as [Hn1 Hn2].
  destruct (to_int_not_nil m) as [Hm1 Hm2].
  rewrite !NilZero.isi in E by assumption.
  injection E as E. now apply DecimalZ.to_int_inj.
Qed.

Lemma target_col_eqb (ret_age r : Z) :
  String.eqb (target_col r) (target_col ret_age) = Z.eqb r ret_age.
Proof.
  destruct (Z.eqb_spec r ret_age) as [-> | Hne].
  - apply String.eqb_refl.
  - apply String.eqb_neq. unfold target_col. intro E.
    apply Hne, py_str_int_inj.
    cbn [String.append] in E. repeat (injection E as E). exact E.
Qed.

(** The table has the age column and one column per retirement age of the
    select box; any other retirement age names no column. *)
Lemma getitem_unknown_column (gender : string) (ret_age : Z) :
  ~ In ret_age ret_age_options ->
  getitem (fst (get_ogden_subset gender)) (target_col ret_age)
  = Raise KeyError.
Proof.
  intro Hnot.
  assert (H60 : Z.eqb 60 ret_age = false)
    by (apply Z.eqb_neq; intro E; apply Hnot; simpl; auto).
  assert (H65 : Z.eqb 65 ret_age = false)
    by (apply Z.eqb_neq; intro E; apply Hnot; simpl; auto).
  assert (H68 : Z.eqb 68 ret_age = false)
    by (apply Z.eqb_neq; intro E; apply Hnot; simpl; auto).
  assert (Hage : String.eqb "Age at Trial" (target_col ret_age) = false)
    by reflexivity.
  assert (E60 := target_col_eqb ret_age 60).
  assert (E65 := target_col_eqb ret_age 65).
  assert (E68 := target_col_eqb ret_age 68).
  change (target_col 60) with "Retire at 60"%string in E60.
  change (target_col 65) with "Retire at 65"%string in E65.
  change (target_col 68) with "Retire at 68"%string in E68.
  rewrite H60 in E60. rewrite H65 in E65. rewrite H68 in E68.
  unfold get_ogden_subset.
  destruct (String.eqb gender "Male");
    cbn [fst applymap map getitem snd];
    rewrite Hage, E60, E65, E68; reflexivity.
Qed.

Lemma lookup_unknown_column (gender : string) (claimant_age ret_age : Z) :
  ~ In ret_age ret_age_options ->
  lookup (fst (get_ogden_subset gender)) claimant_age ret_age
  = Raise KeyError.
Proof.
  intro Hnot. unfold lookup, lookup_expr, loc_values.
  rewrite table_age_column. cbn [bind].
  rewrite (getitem_unknown_column _ _ Hnot). reflexivity.
Qed.

Lemma complex_run_unknown_column
  (i : Complex.inputs) (tax_rate tax_free_remaining : Q) :
  ~ In (Complex.ret_age i) ret_age_options ->
  Complex.run i tax_rate tax_free_remaining = Raise KeyError.
Proof.
  intro Hnot.
  assert (Hl := lookup_unknown_column (Complex.gender i)
                  (Complex.claimant_age i) (Complex.ret_age i) Hnot).
  unfold Complex.run.
  destruct (get_ogden_subset (Complex.gender i)) as [df_ogden table_name].
  cbn [fst] in Hl. rewrite Hl. reflexivity.
Qed.

(** A retirement age other than 60, 65 and 68 makes the lookup raise
    [KeyError], for every gender and age: the [except IndexError] clause
    does not catch it, and the Complex method stops there, before any
    division, whatever the tax rate. *)
Theorem unknown_retirement_age_raises_KeyError
  (i : Complex.inputs) (tax_rate tax_free_remaining : Q) :
  ~ In (Complex.ret_age i) ret_age_options ->
  lookup (fst (get_ogden_subset (Complex.gender i))) (Complex.claimant_age i)
    (Complex.ret_age i) = Raise KeyError /\
  Complex.run i tax_rate tax_free_remaining = Raise KeyError.
Proof.
  intro Hnot. split.
  - apply lookup_unknown_column, Hnot.
  - apply complex_run_unknown_column, Hnot.
Qed.

Lemma unknown_retirement_age_raises_KeyError_witness :
  Complex.run
    {| Complex.old_pension := 20000; Complex.accrued_pension := 10000;
       Complex.new_pension := 5000; Complex.gender := "Male";
       Complex.claimant_age := 50; Complex.ret_age := 67;
       Complex.multiplier_entry := None; Complex.withdrawal := 5;
       Complex.old_lump := 60000; Complex.new_lump_future := 20000;
       Complex.new_lump_now := 10000 |} 1 0
  = Raise KeyError.
Proof.
  refine (proj2 (unknown_retirement_age_raises_KeyError _ 1 0 _)).
  simpl. intros [H | [H | [H | []]]]; discriminate H.
Defined.

(** ** How a run can end *)

Lemma complex_run_zero_division
  (i : Complex.inputs) (tax_rate tax_free_remaining : Q) :
  In (Complex.ret_age i) ret_age_options ->
  tax_rate == 1 ->
  Complex.run i tax_rate tax_free_remaining = Raise ZeroDivisionError.
Proof.
  intros Hret Hone.
  destruct (lookup_total (Complex.gender i) (Complex.claimant_age i)
              (Complex.ret_age i) Hret) as (auto & found & Hlook).
  unfold Complex.run.
  destruct (get_ogden_subset (Complex.gender i)) as [df_ogden table_name].
  cbn [fst] in Hlook. rewrite Hlook. cbn [bind].
  unfold Complex.gross_total. rewrite py_truediv_zero by lra. reflexivity.
Qed.

Lemma simple_run_zero_division
  (gross_salary contrib period tax_rate tax_free_remaining : Q) :
  tax_rate == 1 ->
  Simple.run gross_salary contrib period tax_rate tax_free_remaining
  = Raise ZeroDivisionError.
Proof.
  intro Hone. unfold Simple.run, Simple.gross_total.
  rewrite py_truediv_zero by lra. reflexivity.
Qed.

Lemma simple_run_ok
  (gross_salary contrib period tax_rate tax_free_remaining : Q) :
  ~ tax_rate == 1 ->
  exists v,
    Simple.run gross_salary contrib period tax_rate tax_free_remaining = Ok v.
Proof.
  intro Hne. unfold Simple.run.
  rewrite simple_gross_total_ok by exact Hne. cbn [bind]. eexists. reflexivity.
Qed.

(** The Simple method returns unless the tax rate is 1, where it raises
    [ZeroDivisionError].  The Complex method raises [KeyError] exactly for a
    retirement age outside 60, 65, 68 (the tax rate then plays no part),
    [ZeroDivisionError] exactly for a known retirement age with a tax rate
    of 1, and returns otherwise; no other exception leaves either method. *)
Theorem run_outcomes
  (i : Complex.inputs)
  (gross_salary contrib period tax_rate tax_free_remaining : Q) :
  ((exists v, Simple.run gross_salary contrib period tax_rate
                tax_free_remaining = Ok v) <-> ~ tax_rate == 1) /\
  (Simple.run gross_salary contrib period tax_rate tax_free_remaining
   = Raise ZeroDivisionError <-> tax_rate == 1) /\
  ((exists v, Complex.run i tax_rate tax_free_remaining = Ok v) <->
   In (Complex.ret_age i) ret_age_options /\ ~ tax_rate == 1) /\
  (Complex.run i tax_rate tax_free_remaining = Raise ZeroDivisionError <->
   In (Complex.ret_age i) ret_age_options /\ tax_rate == 1) /\
  (Complex.run i tax_rate tax_free_remaining = Raise KeyError <->
   ~ In (Complex.ret_age i) ret_age_options).
Proof.
  assert (Hs : (~ tax_rate == 1 /\
                exists v, Simple.run gross_salary contrib period tax_rate
                            tax_free_remaining = Ok v) \/
               (tax_rate == 1 /\
                Simple.run gross_salary contrib period tax_rate
                  tax_free_remaining = Raise ZeroDivisionError)).
  { destruct (Qeq_dec tax_rate 1) as [E | E].
    - right. split; [exact E | now apply simple_run_zero_division].
    - left. split; [exact E | now apply simple_run_ok]. }
  assert (Hc : (In (Complex.ret_age i) ret_age_options /\ ~ tax_rate == 1 /\
                exists v, Complex.run i tax_rate tax_free_remaining = Ok v) \/
               (In (Complex.ret_age i) ret_age_options /\ tax_rate == 1 /\
                Complex.run i tax_rate tax_free_remaining
                = Raise ZeroDivisionError) \/
               (~ In (Complex.ret_age i) ret_age_options /\
                Complex.run i tax_rate tax_free_remaining = Raise KeyError)).
  { destruct (in_dec Z.eq_dec (Complex.ret_age i) ret_age_options)
      as [Hin | Hout].
    - destruct (Qeq_dec tax_rate 1) as [E | E].
      + right. left. split; [exact Hin |]. split; [exact E |].
        now apply complex_run_zero_division.
      + left. split; [exact Hin |]. split; [exact E |].
        destruct (complex_run_ok i tax_rate tax_free_remaining Hin E)
          as (v & Hv & _).
        now exists v.
    - right. right. split; [exact Hout |].
      now apply complex_run_unknown_column. }
  split; [| split; [| split; [| split]]].
  - destruct Hs as [(Hne & v & Hv) | (He & Hr)].
    + split; [intros _; exact Hne | intros _; now exists v].
    + split; [intros (v & Hv); congruence | intro Hne; contradiction].
  - destruct Hs as [(Hne & v & Hv) | (He & Hr)].
    + split; [intro H; congruence | intro He; contradiction].
    + split; [intros _; exact He | intros _; exact Hr].
  - destruct Hc as [(Hin & Hne & v & Hv) | [(Hin & He & Hr) | (Hout & Hr)]].
    + split; [intros _; now split | intros _; now exists v].
    + split; [intros (v & Hv); congruence | intros [_ Hne]; contradiction].
    + split; [intros (v & Hv); congruence | intros [Hin _]; contradiction].
  - destruct Hc as [(Hin & Hne & v & Hv) | [(Hin & He & Hr) | (Hout & Hr)]].
    + split; [intro H; congruence | intros [_ He]; contradiction].
    + split; [intros _; now split | intros _; exact Hr].
    + split; [intro H; congruence | intros [Hin _]; contradiction].
  - destruct Hc as [(Hin & Hne & v & Hv) | [(Hin & He & Hr) | (Hout & Hr)]].
    + split; [intro H; congruence | intro Hout; contradiction].
    + split; [intro H; congruence | intro Hout; contradiction].
    + split; [intros _; exact Hout | intros _; exact Hr].
Qed.

(** ** What the widgets can reach *)

(** With values the widgets can return (age 40 to 60, a retirement age and a
    tax rate of their select boxes) the Complex method always returns, the
    lookup always finds a positive multiplier, the page shows the table and
    never the manual-entry warning, the years to retirement lie between 0
    and 28 and the discount factor is at least 1. *)
Theorem widget_values_never_fall_back
  (i : Complex.inputs) (tax_rate tax_free_remaining : Q) :
  widget_values i ->
  In tax_rate tax_rate_options ->
  exists v,
    Complex.run i tax_rate tax_free_remaining = Ok v /\
    Complex.v_found_in_table v = true /\
    0 < Complex.v_auto_multiplier v /\
    Complex.v_display v
    = Dataframe (fst (get_ogden_subset (Complex.gender i)))
        (Complex.claimant_age i) (target_col (Complex.ret_age i)) /\
    (forall msg, Complex.v_display v <> Warning msg) /\
    (0 <= Complex.v_yrs_to_retire v <= 28)%Z /\
    1 <= Complex.v_ls_discount_factor v.
Proof.
  intros (_ & Hage & Hret & _) Hrate.
  assert (Hne : ~ tax_rate == 1).
  { simpl in Hrate. destruct Hrate as [<- | [<- | [<- | []]]];
      intro E; discriminate E. }
  destruct (complex_run_ok i tax_rate tax_free_remaining Hret Hne)
    as (v & Hrun & Hb).
  exists v. split; [exact Hrun |].
  destruct Hb as (_ & Hlook & _ & Hdis & _ & Hy & Hd & _).
  rewrite (lookup_inside _ _ _ Hret Hage) in Hlook.
  injection Hlook as Hm Hf.
  assert (Hyrs : (0 <= Complex.v_yrs_to_retire v <= 28)%Z).
  { rewrite Hy. unfold Complex.yrs_to_retire.
    simpl in Hret. destruct Hret as [<- | [<- | [<- | []]]]; lia. }
  split; [symmetry; exact Hf |].
  split.
  { rewrite <- Hm, cell_unfloored by exact Hage.
    assert (H := linear_value_floor (Complex.gender i) (Complex.ret_age i)
                   (Complex.claimant_age i) Hage). lra. }
  assert (Hshow : Complex.v_display v
    = Dataframe (fst (get_ogden_subset (Complex.gender i)))
        (Complex.claimant_age i) (target_col (Complex.ret_age i))).
  { rewrite Hdis, <- Hf. reflexivity. }
  split; [exact Hshow |].
  split; [intros msg E; rewrite Hshow in E; discriminate E |].
  split; [exact Hyrs |].
  rewrite Hd, discount_factor_as_inverse.
  apply Qpower_1_le; [intro E; discriminate E | lia].
Qed.

Lemma widget_values_never_fall_back_witness :
  widget_values Complex.defaults /\ In 0.40 tax_rate_options /\
  exists v,
    Complex.run Complex.defaults 0.40 0 = Ok v /\
    Complex.v_found_in_table v = true /\
    (0 <= Complex.v_yrs_to_retire v <= 28)%Z.
Proof.
  assert (Hw : widget_values Complex.defaults).
  { unfold widget_values. simpl. repeat split; auto; lia. }
  assert (Hr : In 0.40 tax_rate_options) by (simpl; auto).
  split; [exact Hw |]. split; [exact Hr |].
  destruct (widget_values_never_fall_back Complex.defaults 0.40 0 Hw Hr)
    as (v & Hrun & Hf & _ & _ & _ & Hy & _).
  exists v. split; [exact Hrun |]. split; [exact Hf | exact Hy].
Defined.

(** ** The download section *)

(** A run of the script ends as its branch does when the branch raises; when
    the branch returns it offers no file without a click on the button and
    raises [AttributeError] with one.  No run offers a file for download. *)
Theorem page_never_offers_a_download
  (Buffer : Type) (today : string)
  (and_then : string -> Docx.Document -> nat -> dict -> dict -> string
              -> result Buffer)
  (w : page_inputs) :
  page Buffer today and_then w
  = match report_data w with
    | Raise e => Raise e
    | Ok _ => if w_generate_clicked w then Raise AttributeError else Ok None
    end /\
  (forall docx, page Buffer today and_then w <> Ok (Some docx)).
Proof.
  assert (E : page Buffer today and_then w
    = match report_data w with
      | Raise e => Raise e
      | Ok _ =>
          if w_generate_clicked w then Raise AttributeError else Ok None
      end).
  { unfold page. destruct (report_data w) as [payload | e]; cbn [bind];
      [| reflexivity].
    destruct (w_generate_clicked w); reflexivity. }
  split; [exact E |].
  intros docx H. rewrite E in H.
  destruct (report_data w); [| discriminate H].
  destruct (w_generate_clicked w); discriminate H.
Qed.

(** ** Simple method, end to end *)

(** With no tax-free allowance left (the box's starting value) and inputs
    that are not negative, the whole net total is taxable and the Simple
    method awards [salary * (contrib / 100) * period / (1 - tax_rate)]. *)
Theorem simple_award_without_allowance
  (gross_salary contrib period tax_rate : Q) :
  0 <= gross_salary -> 0 <= contrib -> 0 <= period -> ~ tax_rate == 1 ->
  exists v,
    Simple.run gross_salary contrib period tax_rate 0 = Ok v /\
    Simple.v_taxable v == Simple.v_net_total v /\
    Simple.v_gross_total v
    == gross_salary * (contrib / 100) * period / (1 - tax_rate).
Proof.
  intros Hs Hc Hp Hne. unfold Simple.run.
  rewrite simple_gross_total_ok by exact Hne. cbn [bind].
  eexists. split; [reflexivity |]. cbn.
  set (net := Simple.net_total (Simple.annual_loss gross_salary contrib)
                period).
  assert (Hnet : net == gross_salary * (contrib / 100) * period)
    by reflexivity.
  assert (Hpos : 0 <= net).
  { rewrite Hnet.
    assert (Hc' : 0 <= contrib / 100).
    { assert (E : contrib / 100 == contrib * (1 # 100)) by reflexivity.
      rewrite E. lra. }
    apply Qmult_le_0_compat; [apply Qmult_le_0_compat |]; assumption. }
  unfold Simple.taxable.
  destruct (gross_up_cases net 0) as [(Hle & Ht & Hm) | (Hlt & Ht & Hm)].
  - assert (Hz : net == 0) by lra.
    split; [rewrite Ht, Hz; reflexivity |].
    rewrite Ht, Hm, <- Hnet, Hz. field. lra.
  - split; [rewrite Ht; ring |].
    rewrite Ht, Hm, <- Hnet. field. lra.
Qed.

Lemma simple_award_without_allowance_witness :
  0 <= 30000 /\ 0 <= 5 /\ 0 <= 1 /\ ~ 0.40 == 1 /\
  exists v,
    Simple.run 30000 5 1 0.40 0 = Ok v /\
    Simple.v_gross_total v == 30000 * (5 / 100) * 1 / (1 - 0.40).
Proof.
  assert (H1 : 0 <= 30000) by (intro E; discriminate E).
  assert (H2 : 0 <= 5) by (intro E; discriminate E).
  assert (H3 : 0 <= 1) by (intro E; discriminate E).
  assert (H4 : ~ 0.40 == 1) by (intro E; discriminate E).
  split; [exact H1 |]. split; [exact H2 |]. split; [exact H3 |].
  split; [exact H4 |].
  destruct (simple_award_without_allowance 30000 5 1 0.40 H1 H2 H3 H4)
    as (v & Hv & _ & Hg).
  exists v. split; [exact Hv | exact Hg].
Defined.


(** ** Gross-up at the rates of the select box *)

Lemma tax_rate_option_bounds (tax_rate : Q) :
  In tax_rate tax_rate_options -> 0 < tax_rate /\ tax_rate < 1.
Proof.
  intro H. simpl in H.
  destruct H as [<- | [<- | [<- | []]]]; split; reflexivity.
Qed.

(** At a rate of the select box the gross-up never lowers an award: the
    gross total is not below the net total and the tax element is not
    negative, whatever the net total and the allowance; and against an
    allowance that is not negative the taxable portion does not exceed the
    positive part of the net total. *)
Theorem gross_up_never_lowers_award (net_total allowance tax_rate : Q) :
  In tax_rate tax_rate_options ->
  exists g,
    Simple.gross_total net_total allowance
      (Simple.taxable net_total allowance) tax_rate = Ok g /\
    Complex.gross_total net_total allowance
      (Complex.taxable net_total allowance) tax_rate = Ok g /\
    net_total <= g /\
    0 <= Complex.tax_element g net_total /\
    (0 <= allowance ->
       Simple.taxable net_total allowance <= Qmax 0 net_total /\
       Complex.taxable net_total allowance <= Qmax 0 net_total).
Proof.
  intro Hin. destruct (tax_rate_option_bounds tax_rate Hin) as [H0 Hr].
  destruct (gross_total_both net_total allowance tax_rate) as [Hs Hc];
    [lra |].
  eexists. split; [exact Hs |]. split; [exact Hc |].
  assert (Hk : 0 < / (1 - tax_rate)) by (apply Qinv_lt_0_compat; lra).
  assert (Hk1 : (1 - tax_rate) * / (1 - tax_rate) == 1)
    by (apply Qmult_inv_r; lra).
  assert (Hge : net_total
                <= py_min net_total allowance
                   + py_max 0 (net_total - allowance) / (1 - tax_rate)).
  { unfold Qdiv.
    destruct (gross_up_cases net_total allowance)
      as [(Hle & Ht & Hm) | (Hlt & Ht & Hm)]; rewrite Ht, Hm; nra. }
  split; [exact Hge |].
  split; [unfold Complex.tax_element; lra |].
  intro Ha. unfold Simple.taxable, Complex.taxable. rewrite py_max_Qmax.
  assert (H : Qmax 0 (net_total - allowance) <= Qmax 0 net_total)
    by (apply Q.max_le_compat_l; lra).
  split; exact H.
Qed.

Lemma gross_up_never_lowers_award_witness :
  In 0.45 tax_rate_options /\
  exists g,
    Complex.gross_total 1100 (-400) (Complex.taxable 1100 (-400)) 0.45
    = Ok g /\
    1100 <= g /\ 0 <= Complex.tax_element g 1100.
Proof.
  assert (Hin : In 0.45 tax_rate_options) by (simpl; auto).
  split; [exact Hin |].
  destruct (gross_up_never_lowers_award 1100 (-400) 0.45 Hin)
    as (g & _ & Hc & Hge & Hte & _).
  exists g. split; [exact Hc |]. split; [exact Hge | exact Hte].
Defined.

(** ** Tax rate of 100% *)

(** C8. The tax rate comes from a select box whose options are 0.20, 0.40
    and 0.45: a rate of 1 cannot be entered.  For every rate of the box the
    divisor [1 - tax_rate] is not zero, the division of the gross-up
    returns, the Simple method returns and the Complex method never ends in
    [ZeroDivisionError]; on binary64 numbers too the division by
    [1 - tax_rate] returns at each of the three rates. *)
Theorem tax_rate_never_one (tax_rate : Q) :
  In tax_rate tax_rate_options ->
  tax_rate < 1 /\
  ~ tax_rate == 1 /\
  ~ 1 - tax_rate == 0 /\
  (forall taxable,
     py_truediv taxable (1 - tax_rate) = Ok (taxable / (1 - tax_rate))) /\
  (forall gross_salary contrib period tax_free_remaining,
     exists v,
       Simple.run gross_salary contrib period tax_rate tax_free_remaining
       = Ok v) /\
  (forall i tax_free_remaining,
     Complex.run i tax_rate tax_free_remaining <> Raise ZeroDivisionError) /\
  Forall
    (fun r => forall taxable,
       Binary64.py_truediv taxable (PrimFloat.sub 1 r)
       = Ok (PrimFloat.div taxable (PrimFloat.sub 1 r)))
    Binary64.tax_rate_options.
Proof.
  intro Hin. destruct (tax_rate_option_bounds tax_rate Hin) as [H0 Hr].
  assert (Hne : ~ tax_rate == 1) by lra.
  split; [exact Hr |]. split; [exact Hne |]. split; [lra |].
  split; [intro taxable; apply py_truediv_ok; lra |].
  split; [intros; now apply simple_run_ok |].
  split.
  - intros i tax_free_remaining E.
    destruct (in_dec Z.eq_dec (Complex.ret_age i) ret_age_options)
      as [Hret | Hout].
    + destruct (complex_run_ok i tax_rate tax_free_remaining Hret Hne)
        as (v & Hv & _).
      rewrite Hv in E. discriminate E.
    + rewrite (complex_run_unknown_column i tax_rate tax_free_remaining Hout)
        in E.
      discriminate E.
  - unfold Binary64.tax_rate_options.
    repeat constructor; intro taxable; reflexivity.
Qed.

Lemma tax_rate_never_one_witness :
  In 0.40 tax_rate_options /\ ~ 0.40 == 1 /\
  exists v, Simple.run 30000 5 1 0.40 0 = Ok v.
Proof.
  assert (Hin : In 0.40 tax_rate_options) by (simpl; auto).
  split; [exact Hin |].
  destruct (tax_rate_never_one 0.40 Hin) as (_ & Hne & _ & _ & Hs & _).
  split; [exact Hne | exact (Hs 30000 5 1 0)].
Defined.
